(** * ExtendedADT7410: the ADT7410 temperature sensor driver over I2C

    A shallow embedding of [ExtendedADT7410.h] and [ExtendedADT7410.cpp].

    - C integers are [Z] with the wrap-around of their width written out
      ([uchar] for [unsigned char]/[uint8_t], [ushort] for [unsigned short]).
    - The member functions run in a state-and-fault monad over the sensor
      object ([this]) and the Arduino [Wire] object.
    - A caller-provided buffer ([unsigned char *]) is a list of cells; a cell
      is [None] until it is first written.  A store outside the list, or the
      use of a cell that was never written, is undefined behaviour in C++ and
      a [Fault] here. *)

From Stdlib Require Import ZArith Lia Bool.
From stdpp Require Import base list.

Local Open Scope Z_scope.

(** ** Integer types *)

Definition uchar (z : Z) : Z := z mod 256.
Definition ushort (z : Z) : Z := z mod 65536.

Definition is_uchar (z : Z) : Prop := 0 <= z < 256.

(** The two's-complement reading of an [unsigned short], which the caller of
    [readTemperature] is left to take. *)
Definition as_signed16 (v : Z) : Z := if v <? 32768 then v else v - 65536.

(** ** ExtendedADT7410.h *)

Definition ADT7410_I2C_ADDRESS_0 : Z := 0x48.

Definition ADT7410_REG__TEMP_MSB : Z := 0x00.
Definition ADT7410_REG__TEMP_LSB : Z := 0x01.
Definition ADT7410_REG__ADT7410_STATUS : Z := 0x2.
Definition ADT7410_REG__CONFIG : Z := 0x03.
Definition ADT7410_REG__ADT7410_ID : Z := 0xB.

Definition ADT7410_MODE_16BIT : Z := 0x80.
Definition ADT7410_MODE_FAULTQUEUE_DEF : Z := 0x00.
Definition ADT7410_MODE_FAULTQUEUE_4 : Z := 0x03.
Definition ADT7410_MODE_CONTINUOUS : Z := 0x00.
Definition ADT7410_MODE_ONE_SPS : Z := 0x40.
Definition ADT7410_MODE_ONESHOT : Z := 0x20.
Definition ADT7410_MODE_SHUTDOWN : Z := 0x60.

(** The private members of [class ADT7410]. *)
Record ADT7410 : Type := mkADT7410 {
  sensorID : Z;
  i2cAddress : Z
}.

(** ** The Wire object

    [Wire] is the Arduino two-wire (I2C) library; its code is not part of the
    driver.  What the driver can observe of it is taken as data:
    - [transcript]: the calls the driver has made on the bus, oldest first;
    - [rxBuffer]: the bytes [Wire.available()] currently reports;
    - [replies]: for each [requestFrom] still to come, the bytes the device
      has to send in answer to it.  Nothing is assumed about their number;
      [requestFrom] takes at most the quantity it is asked for. *)

Inductive wire_call : Type :=
  | WBegin
  | WBeginTransmission (address : Z)
  | WWrite (data : Z)
  | WEndTransmission
  | WRequestFrom (address quantity : Z).

Record TwoWire : Type := mkTwoWire {
  transcript : list wire_call;
  rxBuffer : list Z;
  replies : list (list Z)
}.

(** ** Program state and the monad of member functions *)

Record Sketch : Type := mkSketch {
  this : ADT7410;
  Wire : TwoWire
}.

Inductive fault : Type :=
  | OutOfBounds      (* store or load outside the buffer *)
  | Indeterminate.   (* use of a cell that was never written *)

Inductive outcome (A : Type) : Type :=
  | Ok (a : A) (s : Sketch)
  | Fault (f : fault).
Arguments Ok {A} a s.
Arguments Fault {A} f.

Definition M (A : Type) : Type := Sketch -> outcome A.

Definition ret {A} (a : A) : M A := fun s => Ok a s.

Definition bind {A B} (m : M A) (k : A -> M B) : M B :=
  fun s => match m s with
           | Ok a s' => k a s'
           | Fault f => Fault f
           end.

Definition raise {A} (f : fault) : M A := fun _ => Fault f.

#[global] Instance M_ret : MRet M := @ret.
#[global] Instance M_bind : MBind M := fun A B k m => bind m k.

Definition get_i2cAddress : M Z := fun s => Ok (i2cAddress (this s)) s.
Definition get_sensorID : M Z := fun s => Ok (sensorID (this s)) s.

Definition call (c : wire_call) (w : TwoWire) : TwoWire :=
  mkTwoWire (transcript w ++ [c]) (rxBuffer w) (replies w).

Definition on_wire (f : TwoWire -> TwoWire) : M unit :=
  fun s => Ok tt (mkSketch (this s) (f (Wire s))).

Definition Wire_begin : M unit := on_wire (call WBegin).
Definition Wire_beginTransmission (address : Z) : M unit :=
  on_wire (call (WBeginTransmission address)).
Definition Wire_write (data : Z) : M unit := on_wire (call (WWrite data)).
Definition Wire_endTransmission : M unit := on_wire (call WEndTransmission).

(** [Wire.requestFrom]: the receive buffer is replaced by the bus's answer,
    of which at most [quantity] bytes are received. *)
Definition Wire_requestFrom (address quantity : Z) : M unit :=
  on_wire (fun w =>
    mkTwoWire (transcript w ++ [WRequestFrom address quantity])
              (take (Z.to_nat quantity) (hd [] (replies w)))
              (tl (replies w))).

Definition Wire_available : M Z :=
  fun s => Ok (Z.of_nat (length (rxBuffer (Wire s)))) s.

(** [Wire.read]: the next received byte, or -1 when there is none. *)
Definition Wire_read : M Z :=
  fun s => match rxBuffer (Wire s) with
           | [] => Ok (-1) s
           | b :: rx =>
               Ok b (mkSketch (this s)
                       (mkTwoWire (transcript (Wire s)) rx (replies (Wire s))))
           end.

(** ** Buffers *)

Abbreviation buffer := (list (option Z)).

(** [data[i] = v], the value converted to [unsigned char]. *)
Definition store (data : buffer) (i v : Z) : M buffer :=
  if (0 <=? i) && (i <? Z.of_nat (length data))
  then ret (<[Z.to_nat i := Some (uchar v)]> data)
  else raise OutOfBounds.

(** The value of [data[i]]. *)
Definition load (data : buffer) (i : Z) : M Z :=
  if 0 <=? i then
    match data !! Z.to_nat i with
    | Some (Some v) => ret v
    | Some None => raise Indeterminate
    | None => raise OutOfBounds
    end
  else raise OutOfBounds.

(** ** ExtendedADT7410.cpp *)

(** [ADT7410::ADT7410(unsigned char sensor_id)] *)
Definition ADT7410_new (sensor_id : Z) : ADT7410 :=
  if (sensor_id =? 0) || (sensor_id =? 1) || (sensor_id =? 2)
  then mkADT7410 sensor_id (uchar (ADT7410_I2C_ADDRESS_0 + sensor_id))
  else mkADT7410 0 ADT7410_I2C_ADDRESS_0.

(** [ADT7410::writeI2c] *)
Definition writeI2c (address data : Z) : M unit :=
  a ← get_i2cAddress;
  Wire_beginTransmission a;;
  Wire_write address;;
  Wire_write data;;
  Wire_endTransmission.

(** The loop [while (Wire.available()) data[i++] = Wire.read();] of
    [readI2c].  Each turn takes one byte out of the receive buffer and nothing
    else puts bytes in, so the loop makes as many turns as bytes are available
    when it starts: [turns].  The index [i] is a [uint8_t]. *)
Fixpoint readI2c_loop (turns : nat) (i : Z) (data : buffer) : M buffer :=
  match turns with
  | O => ret data
  | S turns' =>
      c ← Wire_read;
      data' ← store data i c;
      readI2c_loop turns' (uchar (i + 1)) data'
  end.

(** [ADT7410::readI2c]; the buffer after the call is returned. *)
Definition readI2c (address num : Z) (data : buffer) : M buffer :=
  a ← get_i2cAddress;
  Wire_beginTransmission a;;
  Wire_write address;;
  Wire_endTransmission;;
  Wire_requestFrom a num;;
  n ← Wire_available;
  readI2c_loop (Z.to_nat n) 0 data.

(** [ADT7410::initialise] *)
Definition initialise : M Z :=
  Wire_begin;;
  whoami ← readI2c ADT7410_REG__ADT7410_ID 1 [None];
  let config := ADT7410_MODE_16BIT in
  let config := uchar (Z.lor config ADT7410_MODE_CONTINUOUS) in
  let config := uchar (Z.lor config 1) in
  writeI2c ADT7410_REG__CONFIG config;;
  load whoami 0.

(** [ADT7410::getID] *)
Definition getID : M Z := get_sensorID.

(** [ADT7410::getStatus] *)
Definition getStatus : M Z :=
  status ← readI2c ADT7410_REG__ADT7410_STATUS 1 [None];
  load status 0.

(** The arithmetic of [readTemperature] once the registers are read:
    lines 87 to 104 of the source. *)
Definition decode (config d0 d1 : Z) : Z :=
  let tempValue := ushort (Z.shiftl (ushort d0) 8) in
  let tempValue := ushort (Z.lor tempValue d1) in
  if negb (Z.land config 0x80 =? 0) then
    let tempValue := Z.shiftr tempValue 3 in
    if negb (Z.land tempValue 0x1000 =? 0)
    then ushort (tempValue - 8192)
    else tempValue
  else
    if negb (Z.land tempValue 0x8000 =? 0)
    then ushort (tempValue - 65536)
    else tempValue.

(** [ADT7410::readTemperature] *)
Definition readTemperature : M Z :=
  let data : buffer := [None; None] in
  let tempValue := 0 in
  let config : buffer := [Some 0] in
  status ← getStatus;
  if Z.land status 0x80 =? 0 then
    config ← readI2c ADT7410_REG__CONFIG 1 config;
    data ← readI2c ADT7410_REG__TEMP_MSB 2 data;
    d0 ← load data 0;
    d1 ← load data 1;
    c ← load config 0;
    ret (decode c d0 d1)
  else ret tempValue.

(** What a run returns, when it returns. *)
Definition returned {A} (o : outcome A) : option A :=
  match o with
  | Ok a _ => Some a
  | Fault _ => None
  end.

(** ** Words of the data sheet, for the statements below *)

(** Sign extension of the low [bits] bits of [v]: bit [bits - 1] is the sign. *)
Definition sign_extend (bits v : Z) : Z :=
  if Z.testbit v (bits - 1) then v - 2 ^ bits else v.

(** The 16-bit rule: big-endian concatenation, sign at bit 15, no shift. *)
Definition decode16 (msb lsb : Z) : Z :=
  sign_extend 16 (Z.lor (Z.shiftl msb 8) lsb).

(** The 13-bit rule: big-endian concatenation, shift right by 3, sign at
    bit 12. *)
Definition decode13 (msb lsb : Z) : Z :=
  sign_extend 13 (Z.shiftr (Z.lor (Z.shiftl msb 8) lsb) 3).

(** The bus calls of one register read of [num] bytes, and of one register
    write, by the sensor at I2C address [a]. *)
Definition register_read (a reg num : Z) : list wire_call :=
  [WBeginTransmission a; WWrite reg; WEndTransmission; WRequestFrom a num].

Definition register_write (a reg data : Z) : list wire_call :=
  [WBeginTransmission a; WWrite reg; WWrite data; WEndTransmission].

(** The state after a register read whose answer has been consumed. *)
Definition after_read (reg num : Z) (s : Sketch) : Sketch :=
  mkSketch (this s)
    (mkTwoWire (transcript (Wire s) ++ register_read (i2cAddress (this s)) reg num)
               [] (tl (replies (Wire s)))).

(** The stores the loop of [readI2c] makes for the bytes [rx], from index
    [k] on. *)
Fixpoint filled (k : nat) (rx : list Z) (data : buffer) : buffer :=
  match rx with
  | [] => data
  | b :: rx' => filled (S k) rx' (<[k := Some (uchar b)]> data)
  end.

(** The sensor handle invariant. *)
Definition handle_ok (h : ADT7410) : Prop :=
  (sensorID h = 0 \/ sensorID h = 1 \/ sensorID h = 2) /\
  i2cAddress h = 0x48 + sensorID h.

(** A member function leaves the members of the object alone. *)
Definition keeps_this {A} (m : M A) : Prop :=
  forall s a s', m s = Ok a s' -> this s' = this s.

(** The stores of the loop of [readI2c] as a function of the bytes available,
    from the [uint8_t] index [i] on: [None] when one of them falls outside the
    buffer. *)
Fixpoint stored (i : Z) (rx : list Z) (data : buffer) : option buffer :=
  match rx with
  | [] => Some data
  | b :: rx' =>
      if (0 <=? i) && (i <? Z.of_nat (length data))
      then stored (uchar (i + 1)) rx' (<[Z.to_nat i := Some (uchar b)]> data)
      else None
  end.

(** A bus call that names a device names the device at address [a]. *)
Definition addressed_to (a : Z) (c : wire_call) : Prop :=
  match c with
  | WBeginTransmission x => x = a
  | WRequestFrom x _ => x = a
  | _ => True
  end.

(** * Properties *)

(** ** Bits *)

Lemma land_pow2_eqb (s k : Z) :
  0 <= k -> (Z.land s (2 ^ k) =? 0) = negb (Z.testbit s k).
Proof.
  intros Hk.
  assert (E : Z.land s (2 ^ k) = if Z.testbit s k then 2 ^ k else 0).
  { apply Z.bits_inj'. intros n Hn.
    rewrite Z.land_spec, Z.pow2_bits_eqb by lia.
    destruct (Z.eqb_spec k n) as [->|Hne].
    - destruct (Z.testbit s n); simpl.
      + rewrite Z.pow2_bits_eqb, Z.eqb_refl by lia. reflexivity.
      + rewrite Z.bits_0. reflexivity.
    - rewrite andb_false_r.
      destruct (Z.testbit s k).
      + rewrite Z.pow2_bits_eqb by lia.
        symmetry. apply Z.eqb_neq. exact Hne.
      + rewrite Z.bits_0. reflexivity. }
  rewrite E. destruct (Z.testbit s k).
  - apply Z.eqb_neq. pose proof (Z.pow_pos_nonneg 2 k). lia.
  - reflexivity.
Qed.

Lemma land_0x80 (s : Z) : (Z.land s 0x80 =? 0) = negb (Z.testbit s 7).
Proof. exact (land_pow2_eqb s 7 ltac:(lia)). Qed.

Lemma testbit_uchar_7 (s : Z) : Z.testbit (uchar s) 7 = Z.testbit s 7.
Proof.
  unfold uchar. change 256 with (2 ^ 8).
  apply Z.mod_pow2_bits_low. lia.
Qed.

Lemma uchar_id (b : Z) : is_uchar b -> uchar b = b.
Proof. unfold is_uchar, uchar. intros H. apply Z.mod_small. lia. Qed.

(** The top bit of a [w]-bit value is set exactly from [2 ^ (w - 1)] on. *)
Lemma testbit_top (w v : Z) :
  0 < w -> 0 <= v < 2 ^ w -> Z.testbit v (w - 1) = (2 ^ (w - 1) <=? v).
Proof.
  intros Hw Hv.
  assert (Hp : 2 ^ w = 2 * 2 ^ (w - 1)).
  { replace w with (Z.succ (w - 1)) at 1 by lia. apply Z.pow_succ_r. lia. }
  assert (Hpos : 0 < 2 ^ (w - 1)) by (apply Z.pow_pos_nonneg; lia).
  destruct (Z.leb_spec (2 ^ (w - 1)) v) as [Hge|Hlt].
  - apply Z.testbit_true; [lia|].
    replace (v / 2 ^ (w - 1)) with 1; [reflexivity|].
    apply Z.div_unique with (r := v - 2 ^ (w - 1)); lia.
  - destruct (Z.eq_dec v 0) as [->|Hnz].
    + apply Z.bits_0.
    + apply Z.bits_above_log2; [lia|].
      apply Z.log2_lt_pow2; lia.
Qed.

(** Big-endian concatenation of two bytes. *)
Lemma concat_bytes (d0 d1 : Z) :
  is_uchar d0 -> is_uchar d1 ->
  Z.lor (Z.shiftl d0 8) d1 = 256 * d0 + d1.
Proof.
  unfold is_uchar. intros H0 H1.
  assert (Hdisj : Z.land (Z.shiftl d0 8) d1 = 0).
  { apply Z.bits_inj'. intros n Hn.
    rewrite Z.land_spec, Z.bits_0.
    destruct (Z.ltb_spec n 8) as [Hlt|Hge].
    - rewrite Z.shiftl_spec_low by lia. reflexivity.
    - rewrite (Z.bits_above_log2 d1 n), andb_false_r; [reflexivity|lia|].
      destruct (Z.eq_dec d1 0) as [->|Hnz]; [simpl; lia|].
      apply Z.lt_le_trans with 8; [|lia].
      apply Z.log2_lt_pow2; simpl; lia. }
  rewrite <- Z.lxor_lor by exact Hdisj.
  rewrite <- Z.add_nocarry_lxor by exact Hdisj.
  rewrite Z.shiftl_mul_pow2 by lia. change (2 ^ 8) with 256. lia.
Qed.

(** ** The arithmetic of readTemperature *)

Lemma ushort_small (v : Z) : 0 <= v < 65536 -> ushort v = v.
Proof. intros H. unfold ushort. apply Z.mod_small. exact H. Qed.

(** Subtracting 65536 in an [unsigned short] changes nothing. *)
Lemma ushort_sub_65536 (v : Z) : 0 <= v < 65536 -> ushort (v - 65536) = v.
Proof.
  intros H. unfold ushort.
  symmetry. apply Z.mod_unique with (q := -1); lia.
Qed.

Lemma concat_range (d0 d1 : Z) :
  is_uchar d0 -> is_uchar d1 -> 0 <= Z.lor (Z.shiftl d0 8) d1 < 65536.
Proof.
  intros H0 H1. rewrite concat_bytes by assumption.
  unfold is_uchar in *. lia.
Qed.

(** Lines 87 and 88: the conversions to [unsigned short] lose nothing. *)
Lemma tempValue_concat (d0 d1 : Z) :
  is_uchar d0 -> is_uchar d1 ->
  ushort (Z.lor (ushort (Z.shiftl (ushort d0) 8)) d1) = Z.lor (Z.shiftl d0 8) d1.
Proof.
  intros H0 H1.
  assert (Hs : ushort (Z.shiftl (ushort d0) 8) = Z.shiftl d0 8).
  { rewrite (ushort_small d0) by (unfold is_uchar in H0; lia).
    apply ushort_small.
    rewrite Z.shiftl_mul_pow2 by lia. change (2 ^ 8) with 256.
    unfold is_uchar in H0. lia. }
  rewrite Hs. apply ushort_small. apply concat_range; assumption.
Qed.

Lemma shiftr3_range (t : Z) : 0 <= t < 65536 -> 0 <= Z.shiftr t 3 < 8192.
Proof.
  intros H. rewrite Z.shiftr_div_pow2 by lia. change (2 ^ 3) with 8.
  split.
  - apply Z.div_pos; lia.
  - apply Z.div_lt_upper_bound; lia.
Qed.

(** With bit 7 of the configuration byte clear the code returns the
    concatenation itself. *)
Lemma decode_bit7_clear (config d0 d1 : Z) :
  is_uchar d0 -> is_uchar d1 -> Z.testbit config 7 = false ->
  decode config d0 d1 = Z.lor (Z.shiftl d0 8) d1.
Proof.
  intros H0 H1 Hc. unfold decode.
  rewrite land_0x80, Hc. simpl negb. cbv iota.
  rewrite tempValue_concat by assumption.
  destruct (negb (Z.land (Z.lor (Z.shiftl d0 8) d1) 32768 =? 0)).
  - apply ushort_sub_65536. apply concat_range; assumption.
  - reflexivity.
Qed.

(** With bit 7 of the configuration byte set the code shifts right by 3 and
    takes bit 12 as the sign. *)
Lemma decode_bit7_set (config d0 d1 : Z) :
  is_uchar d0 -> is_uchar d1 -> Z.testbit config 7 = true ->
  decode config d0 d1 = ushort (decode13 d0 d1).
Proof.
  intros H0 H1 Hc. unfold decode, decode13, sign_extend.
  rewrite land_0x80, Hc. simpl negb. cbv iota.
  rewrite tempValue_concat by assumption.
  change 4096 with (2 ^ 12). rewrite land_pow2_eqb by lia.
  rewrite negb_involutive. change (13 - 1) with 12.
  pose proof (shiftr3_range _ (concat_range d0 d1 H0 H1)) as Hr.
  destruct (Z.testbit (Z.shiftr (Z.lor (Z.shiftl d0 8) d1) 3) 12).
  - reflexivity.
  - symmetry. apply ushort_small. lia.
Qed.

(** In the words of the data sheet, the first of the two is the 16-bit rule. *)
Lemma ushort_decode16 (d0 d1 : Z) :
  is_uchar d0 -> is_uchar d1 ->
  ushort (decode16 d0 d1) = Z.lor (Z.shiftl d0 8) d1.
Proof.
  intros H0 H1. unfold decode16, sign_extend.
  pose proof (concat_range d0 d1 H0 H1) as Hr.
  destruct (Z.testbit _ _).
  - apply ushort_sub_65536. exact Hr.
  - apply ushort_small. exact Hr.
Qed.

(** ** Buffers and the read loop *)

Lemma length_filled (rx : list Z) : forall (k : nat) (data : buffer),
  length (filled k rx data) = length data.
Proof.
  induction rx as [|b rx IH]; intros k data; cbn [filled].
  - reflexivity.
  - rewrite IH. apply length_insert.
Qed.

Lemma filled_spec (rx : list Z) : forall (k : nat) (data : buffer),
  (k + length rx <= length data)%nat ->
  filled k rx data =
    take k data ++ ((fun b => Some (uchar b)) <$> rx) ++ drop (k + length rx) data.
Proof.
  induction rx as [|b rx IH]; intros k data Hlen; cbn [filled length fmap list_fmap] in *.
  - rewrite Nat.add_0_r. symmetry. apply take_drop.
  - rewrite IH by (rewrite length_insert; lia).
    rewrite (take_S_r _ k (Some (uchar b)))
      by (apply list_lookup_insert_eq; lia).
    rewrite take_insert_ge by lia.
    rewrite drop_insert_lt by lia.
    replace (S k + length rx)%nat with (k + S (length rx))%nat by lia.
    rewrite <- app_assoc.
    reflexivity.
Qed.

(** Cells from [k + length rx] on are not touched. *)
Lemma filled_lookup_ge (rx : list Z) : forall (k i : nat) (data : buffer),
  (k + length rx <= i)%nat -> filled k rx data !! i = data !! i.
Proof.
  induction rx as [|b rx IH]; intros k i data Hi; cbn [filled length] in *.
  - reflexivity.
  - rewrite IH by lia. apply list_lookup_insert_ne. lia.
Qed.

Ltac run_step := unfold mbind, M_bind, bind; simpl.

Lemma readI2c_loop_run (rx : list Z) : forall (k : nat) (data : buffer) (s : Sketch),
  rxBuffer (Wire s) = rx ->
  (k + length rx <= length data)%nat ->
  (k + length rx <= 255)%nat ->
  readI2c_loop (length rx) (Z.of_nat k) data s =
    Ok (filled k rx data)
       (mkSketch (this s) (mkTwoWire (transcript (Wire s)) [] (replies (Wire s)))).
Proof.
  induction rx as [|b rx IH]; intros k data [h [tr rxb rp]] Hrx Hlen Hmax;
    simpl in Hrx; subst rxb; simpl in *.
  - reflexivity.
  - run_step. unfold Wire_read, store. simpl.
    assert (Hin : (0 <=? Z.of_nat k) && (Z.of_nat k <? Z.of_nat (length data)) = true).
    { apply andb_true_intro. split; [apply Z.leb_le|apply Z.ltb_lt]; lia. }
    rewrite Hin. simpl. unfold mret, M_ret, ret.
    rewrite Nat2Z.id.
    replace (uchar (Z.of_nat k + 1)) with (Z.of_nat (S k))
      by (unfold uchar; rewrite Z.mod_small; lia).
    rewrite IH; [reflexivity|reflexivity|rewrite length_insert; lia|lia].
Qed.

(** A register read whose answer fits the buffer. *)
Lemma readI2c_run (address num : Z) (data : buffer) (s : Sketch) :
  (length (take (Z.to_nat num) (hd [] (replies (Wire s)))) <= length data)%nat ->
  (length (take (Z.to_nat num) (hd [] (replies (Wire s)))) <= 255)%nat ->
  readI2c address num data s =
    Ok (filled 0 (take (Z.to_nat num) (hd [] (replies (Wire s)))) data)
       (after_read address num s).
Proof.
  intros Hlen Hmax. unfold readI2c. run_step.
  rewrite Nat2Z.id.
  change 0 with (Z.of_nat 0).
  rewrite readI2c_loop_run; simpl; try reflexivity; try lia.
  unfold after_read, register_read, call. simpl.
  repeat rewrite <- app_assoc. reflexivity.
Qed.

(** ** readI2c, for every answer of the bus *)

Lemma readI2c_loop_stored (rx : list Z) : forall (i : Z) (data : buffer) (s : Sketch),
  rxBuffer (Wire s) = rx ->
  readI2c_loop (length rx) i data s =
    match stored i rx data with
    | Some d =>
        Ok d (mkSketch (this s)
                (mkTwoWire (transcript (Wire s)) [] (replies (Wire s))))
    | None => Fault OutOfBounds
    end.
Proof.
  induction rx as [|b rx IH]; intros i data [h [tr rxb rp]] Hrx;
    simpl in Hrx; subst rxb.
  - reflexivity.
  - cbn [length readI2c_loop stored].
    unfold mbind, M_bind, bind, Wire_read, store. cbn [Wire rxBuffer].
    destruct ((0 <=? i) && (i <? Z.of_nat (length data))).
    + unfold ret. rewrite IH by reflexivity. reflexivity.
    + reflexivity.
Qed.

Lemma readI2c_by_reply (address num : Z) (data : buffer) (s : Sketch) :
  readI2c address num data s =
    match stored 0 (take (Z.to_nat num) (hd [] (replies (Wire s)))) data with
    | Some d => Ok d (after_read address num s)
    | None => Fault OutOfBounds
    end.
Proof.
  unfold readI2c. run_step. rewrite Nat2Z.id.
  rewrite readI2c_loop_stored by reflexivity.
  destruct (stored 0 (take (Z.to_nat num) (hd [] (replies (Wire s)))) data);
    [|reflexivity].
  unfold after_read, register_read, call. simpl.
  repeat rewrite <- app_assoc. reflexivity.
Qed.

Lemma length_stored (rx : list Z) : forall (i : Z) (data d : buffer),
  stored i rx data = Some d -> length d = length data.
Proof.
  induction rx as [|b rx IH]; intros i data d H; cbn [stored] in H.
  - inversion H. reflexivity.
  - destruct ((0 <=? i) && (i <? Z.of_nat (length data))); [|discriminate H].
    rewrite (IH _ _ _ H). apply length_insert.
Qed.

Lemma uchar_range (z : Z) : 0 <= uchar z < 256.
Proof. unfold uchar. apply Z.mod_pos_bound. lia. Qed.

(** In a buffer of 256 cells or more no store of the loop can fall outside:
    the index is a [uint8_t]. *)
Lemma stored_large (rx : list Z) : forall (i : Z) (data : buffer),
  0 <= i < 256 -> (256 <= length data)%nat ->
  exists d, stored i rx data = Some d.
Proof.
  induction rx as [|b rx IH]; intros i data Hi Hlen; cbn [stored].
  - eexists. reflexivity.
  - replace ((0 <=? i) && (i <? Z.of_nat (length data))) with true
      by (symmetry; apply andb_true_intro;
          split; [apply Z.leb_le|apply Z.ltb_lt]; lia).
    apply IH; [apply uchar_range|rewrite length_insert; exact Hlen].
Qed.

Lemma stored_filled (rx : list Z) : forall (k : nat) (data d : buffer),
  stored (Z.of_nat k) rx data = Some d ->
  (k + length rx <= 255)%nat ->
  d = filled k rx data.
Proof.
  induction rx as [|b rx IH]; intros k data d H Hmax; cbn [stored filled length] in *.
  - inversion H. reflexivity.
  - destruct ((0 <=? Z.of_nat k) && (Z.of_nat k <? Z.of_nat (length data)));
      [|discriminate H].
    rewrite Nat2Z.id in H.
    replace (uchar (Z.of_nat k + 1)) with (Z.of_nat (S k)) in H
      by (unfold uchar; rewrite Z.mod_small; lia).
    apply IH; [exact H|lia].
Qed.

(** ** Runs of the member functions *)

Lemma mbind_ok {A B} (m : M A) (k : A -> M B) (s s' : Sketch) (a : A) :
  m s = Ok a s' -> (x ← m; k x) s = k a s'.
Proof. intros H. unfold mbind, M_bind, bind. rewrite H. reflexivity. Qed.

Lemma after_read_eq (reg num : Z) (s : Sketch) (reply : list Z) (rest : list (list Z)) :
  replies (Wire s) = reply :: rest ->
  after_read reg num s =
    mkSketch (this s)
      (mkTwoWire (transcript (Wire s) ++ register_read (i2cAddress (this s)) reg num)
                 [] rest).
Proof. intros H. unfold after_read. rewrite H. reflexivity. Qed.

Lemma getStatus_run (s : Sketch) (status : Z) (rest : list (list Z)) :
  replies (Wire s) = [status] :: rest ->
  getStatus s = Ok (uchar status) (after_read ADT7410_REG__ADT7410_STATUS 1 s).
Proof.
  intros Hr. unfold getStatus.
  erewrite mbind_ok by (apply readI2c_run; rewrite Hr; simpl; lia).
  rewrite Hr. reflexivity.
Qed.

Lemma readTemperature_busy (s : Sketch) (status : Z) (rest : list (list Z)) :
  replies (Wire s) = [status] :: rest ->
  Z.testbit status 7 = true ->
  readTemperature s = Ok 0 (after_read ADT7410_REG__ADT7410_STATUS 1 s).
Proof.
  intros Hr Hbit. unfold readTemperature.
  erewrite mbind_ok by (eapply getStatus_run; exact Hr).
  rewrite land_0x80, testbit_uchar_7, Hbit. reflexivity.
Qed.

Lemma readTemperature_ready (s : Sketch) (status config d0 d1 : Z)
    (rest : list (list Z)) :
  replies (Wire s) = [status] :: [config] :: [d0; d1] :: rest ->
  Z.testbit status 7 = false ->
  readTemperature s =
    Ok (decode (uchar config) (uchar d0) (uchar d1))
       (after_read ADT7410_REG__TEMP_MSB 2
          (after_read ADT7410_REG__CONFIG 1
             (after_read ADT7410_REG__ADT7410_STATUS 1 s))).
Proof.
  intros Hr Hbit. unfold readTemperature.
  erewrite mbind_ok by (eapply getStatus_run; exact Hr).
  rewrite land_0x80, testbit_uchar_7, Hbit. cbn [negb].
  set (s1 := after_read ADT7410_REG__ADT7410_STATUS 1 s).
  assert (H1 : replies (Wire s1) = [config] :: [d0; d1] :: rest).
  { unfold s1, after_read. cbn [Wire replies]. rewrite Hr. reflexivity. }
  erewrite mbind_ok by (apply readI2c_run; rewrite H1; simpl; lia).
  cbv beta.
  set (s2 := after_read ADT7410_REG__CONFIG 1 s1).
  assert (H2 : replies (Wire s2) = [d0; d1] :: rest).
  { unfold s2, after_read. cbn [Wire replies]. rewrite H1. reflexivity. }
  erewrite mbind_ok by (apply readI2c_run; rewrite H2; simpl; lia).
  cbv beta. rewrite H1, H2. reflexivity.
Qed.

Lemma writeI2c_run (address data : Z) (s : Sketch) :
  writeI2c address data s =
    Ok tt (mkSketch (this s)
             (mkTwoWire
                (transcript (Wire s) ++ register_write (i2cAddress (this s)) address data)
                (rxBuffer (Wire s)) (replies (Wire s)))).
Proof.
  unfold writeI2c. run_step.
  unfold Wire_endTransmission, on_wire, call, register_write. simpl.
  repeat rewrite <- app_assoc. reflexivity.
Qed.

Lemma initialise_run (s : Sketch) (whoami : Z) (rest : list (list Z)) :
  replies (Wire s) = [whoami] :: rest ->
  initialise s =
    Ok (uchar whoami)
       (mkSketch (this s)
          (mkTwoWire
             (transcript (Wire s) ++ [WBegin] ++
              register_read (i2cAddress (this s)) ADT7410_REG__ADT7410_ID 1 ++
              register_write (i2cAddress (this s)) ADT7410_REG__CONFIG 0x81)
             [] rest)).
Proof.
  intros Hr. unfold initialise.
  erewrite mbind_ok by reflexivity.
  cbv beta.
  set (s1 := mkSketch (this s) (call WBegin (Wire s))).
  assert (H1 : replies (Wire s1) = [whoami] :: rest) by exact Hr.
  erewrite mbind_ok by (apply readI2c_run; rewrite H1; simpl; lia).
  cbv beta.
  erewrite mbind_ok by apply writeI2c_run.
  rewrite H1. simpl. rewrite Hr.
  repeat rewrite <- app_assoc. reflexivity.
Qed.

(** ** The members of the object are never assigned *)

Create HintDb keeps discriminated.

Lemma keeps_this_ret {A} (a : A) : keeps_this (mret a : M A).
Proof. intros s b s' H. inversion H. reflexivity. Qed.

Lemma keeps_this_raise {A} (f : fault) : keeps_this (raise f : M A).
Proof. intros s b s' H. discriminate H. Qed.

Lemma keeps_this_bind {A B} (m : M A) (k : A -> M B) :
  keeps_this m -> (forall a, keeps_this (k a)) -> keeps_this (x ← m; k x).
Proof.
  intros Hm Hk s b s' H. unfold mbind, M_bind, bind in H.
  destruct (m s) as [a s1|f] eqn:E; [|discriminate H].
  rewrite (Hk a s1 b s' H). exact (Hm s a s1 E).
Qed.

Lemma keeps_this_on_wire (f : TwoWire -> TwoWire) : keeps_this (on_wire f).
Proof. intros s b s' H. inversion H. reflexivity. Qed.

Lemma keeps_this_get_i2cAddress : keeps_this get_i2cAddress.
Proof. intros s b s' H. inversion H. subst. reflexivity. Qed.

Lemma keeps_this_get_sensorID : keeps_this get_sensorID.
Proof. intros s b s' H. inversion H. subst. reflexivity. Qed.

Lemma keeps_this_Wire_available : keeps_this Wire_available.
Proof. intros s b s' H. inversion H. subst. reflexivity. Qed.

Lemma keeps_this_Wire_read : keeps_this Wire_read.
Proof.
  intros s b s' H. unfold Wire_read in H.
  destruct (rxBuffer (Wire s)); inversion H; reflexivity.
Qed.

Lemma keeps_this_store (data : buffer) (i v : Z) : keeps_this (store data i v).
Proof.
  unfold store. destruct (_ && _).
  - apply keeps_this_ret.
  - apply keeps_this_raise.
Qed.

Lemma keeps_this_load (data : buffer) (i : Z) : keeps_this (load data i).
Proof.
  unfold load. destruct (0 <=? i); [|apply keeps_this_raise].
  destruct (data !! Z.to_nat i) as [[v|]|].
  - apply keeps_this_ret.
  - apply keeps_this_raise.
  - apply keeps_this_raise.
Qed.

#[local] Hint Resolve keeps_this_ret keeps_this_raise keeps_this_on_wire
  keeps_this_get_i2cAddress keeps_this_get_sensorID keeps_this_Wire_available
  keeps_this_Wire_read keeps_this_store keeps_this_load : keeps.

Ltac keeps :=
  repeat first
    [ progress auto with keeps
    | apply keeps_this_bind; [|intros ?] ].

Lemma keeps_this_readI2c_loop (turns : nat) : forall (i : Z) (data : buffer),
  keeps_this (readI2c_loop turns i data).
Proof.
  induction turns as [|turns IH]; intros i data; simpl.
  - apply keeps_this_ret.
  - keeps.
Qed.

#[local] Hint Resolve keeps_this_readI2c_loop : keeps.

Lemma keeps_this_readI2c (address num : Z) (data : buffer) :
  keeps_this (readI2c address num data).
Proof.
  unfold readI2c, Wire_beginTransmission, Wire_write, Wire_endTransmission,
    Wire_requestFrom.
  keeps.
Qed.

Lemma keeps_this_writeI2c (address data : Z) : keeps_this (writeI2c address data).
Proof.
  unfold writeI2c, Wire_beginTransmission, Wire_write, Wire_endTransmission.
  keeps.
Qed.

#[local] Hint Resolve keeps_this_readI2c keeps_this_writeI2c : keeps.

Lemma keeps_this_getStatus : keeps_this getStatus.
Proof. unfold getStatus. keeps. Qed.

#[local] Hint Resolve keeps_this_getStatus : keeps.

Lemma keeps_this_initialise : keeps_this initialise.
Proof. unfold initialise, Wire_begin. keeps. Qed.

Lemma keeps_this_readTemperature : keeps_this readTemperature.
Proof.
  unfold readTemperature.
  apply keeps_this_bind; [auto with keeps|intros status].
  destruct (Z.land status 128 =? 0); keeps.
Qed.

Lemma keeps_this_getID : keeps_this getID.
Proof. unfold getID. keeps. Qed.

(** * The claims *)

(** C1. With status bit 7 clear and bit 7 of the configuration byte set,
    readTemperature should decode by the 16-bit rule and return 400 for the
    register bytes 0x01, 0x90.  The code tests [config & 0x80] the other way
    round: with the configuration byte 0x81 that [initialise] writes
    ([ADT7410_MODE_16BIT] set) it takes the branch that shifts right by 3 and
    returns 50, where the 16-bit rule gives 400. *)
Theorem readTemperature_config_0x81_raw_0x0190 :
  returned (readTemperature
              (mkSketch (ADT7410_new 0)
                 (mkTwoWire [] [] [[0x00]; [0x81]; [0x01; 0x90]]))) = Some 50 /\
  ushort (decode13 0x01 0x90) = 50 /\
  ushort (decode16 0x01 0x90) = 400.
Proof. repeat split; vm_compute; reflexivity. Qed.

(** C2. With status bit 7 clear and bit 7 of the configuration byte clear,
    readTemperature should decode by the 13-bit rule and return 1023 for the
    register value 0x1FF8.  The code takes its branch without shift there and
    returns 0x1FF8 = 8184, where the 13-bit rule gives 1023. *)
Theorem readTemperature_config_0x00_raw_0x1FF8 :
  returned (readTemperature
              (mkSketch (ADT7410_new 0)
                 (mkTwoWire [] [] [[0x00]; [0x00]; [0x1F; 0xF8]]))) = Some 8184 /\
  ushort (decode16 0x1F 0xF8) = 8184 /\
  ushort (decode13 0x1F 0xF8) = 1023.
Proof. repeat split; vm_compute; reflexivity. Qed.

(** C3. When the status byte read at the start has bit 7 set, readTemperature
    returns 0 and the read of the status register (0x02) is the only bus
    transaction it makes: the configuration and temperature registers are not
    read, and whatever the bus would have answered for them ([rest]) is left
    untouched. *)
Theorem readTemperature_not_ready (s : Sketch) (status : Z) (rest : list (list Z)) :
  replies (Wire s) = [status] :: rest ->
  Z.testbit status 7 = true ->
  readTemperature s =
    Ok 0
       (mkSketch (this s)
          (mkTwoWire
             (transcript (Wire s) ++
              [WBeginTransmission (i2cAddress (this s)); WWrite 0x02;
               WEndTransmission; WRequestFrom (i2cAddress (this s)) 1])
             [] rest)).
Proof.
  intros Hr Hbit.
  rewrite (readTemperature_busy s status rest Hr Hbit).
  rewrite (after_read_eq _ _ _ _ _ Hr). reflexivity.
Qed.

Lemma readTemperature_not_ready_witness :
  readTemperature
    (mkSketch (ADT7410_new 1) (mkTwoWire [] [] [[0x80]; [0x81]; [0x0C; 0x80]])) =
  Ok 0
     (mkSketch (ADT7410_new 1)
        (mkTwoWire
           [WBeginTransmission 0x49; WWrite 0x02; WEndTransmission;
            WRequestFrom 0x49 1]
           [] [[0x81]; [0x0C; 0x80]])).
Proof.
  apply (readTemperature_not_ready
           (mkSketch (ADT7410_new 1)
              (mkTwoWire [] [] [[0x80]; [0x81]; [0x0C; 0x80]]))
           0x80 [[0x81]; [0x0C; 0x80]]).
  - reflexivity.
  - reflexivity.
Defined.

(** C4. For a sensor id of 0, 1 or 2 the constructor stores the id and the
    address 0x48 + id; for any other id it stores id 0 and address 0x48.  The
    constructor is a total function: there is no error to raise. *)
Theorem constructor_address (sensor_id : Z) :
  ((sensor_id = 0 \/ sensor_id = 1 \/ sensor_id = 2) ->
   sensorID (ADT7410_new sensor_id) = sensor_id /\
   i2cAddress (ADT7410_new sensor_id) = 0x48 + sensor_id) /\
  (~ (sensor_id = 0 \/ sensor_id = 1 \/ sensor_id = 2) ->
   sensorID (ADT7410_new sensor_id) = 0 /\
   i2cAddress (ADT7410_new sensor_id) = 0x48).
Proof.
  split.
  - intros [-> | [-> | ->]]; split; reflexivity.
  - intros Hout. unfold ADT7410_new.
    destruct (Z.eqb_spec sensor_id 0) as [H0|H0]; [tauto|].
    destruct (Z.eqb_spec sensor_id 1) as [H1|H1]; [tauto|].
    destruct (Z.eqb_spec sensor_id 2) as [H2|H2]; [tauto|].
    split; reflexivity.
Qed.

Lemma constructor_address_witness :
  (sensorID (ADT7410_new 2) = 2 /\ i2cAddress (ADT7410_new 2) = 0x48 + 2) /\
  (sensorID (ADT7410_new 7) = 0 /\ i2cAddress (ADT7410_new 7) = 0x48).
Proof.
  split.
  - apply (proj1 (constructor_address 2)). lia.
  - apply (proj2 (constructor_address 7)). lia.
Defined.

(** C5. initialise writes the byte 0x81 to the configuration register 0x03
    and returns the byte read from the ID register 0x0B.  In 0x81 the 16-bit
    flag is set, the operation-mode bits 6-5 are those of continuous
    conversion, and bit 0 is set. *)
Theorem initialise_configures (s : Sketch) (whoami : Z) (rest : list (list Z)) :
  replies (Wire s) = [whoami] :: rest ->
  is_uchar whoami ->
  initialise s =
    Ok whoami
       (mkSketch (this s)
          (mkTwoWire
             (transcript (Wire s) ++
              [WBegin;
               WBeginTransmission (i2cAddress (this s)); WWrite 0x0B;
               WEndTransmission; WRequestFrom (i2cAddress (this s)) 1;
               WBeginTransmission (i2cAddress (this s)); WWrite 0x03;
               WWrite 0x81; WEndTransmission])
             [] rest)) /\
  Z.land 0x81 ADT7410_MODE_16BIT = ADT7410_MODE_16BIT /\
  Z.land 0x81 ADT7410_MODE_SHUTDOWN = ADT7410_MODE_CONTINUOUS /\
  Z.testbit 0x81 0 = true.
Proof.
  intros Hr Hb. split; [|repeat split].
  rewrite (initialise_run s whoami rest Hr).
  rewrite (uchar_id whoami Hb). reflexivity.
Qed.

Lemma initialise_configures_witness :
  replies (Wire (mkSketch (ADT7410_new 0) (mkTwoWire [] [] [[0xCB]]))) = [[0xCB]] /\
  is_uchar 0xCB /\
  initialise (mkSketch (ADT7410_new 0) (mkTwoWire [] [] [[0xCB]])) =
    Ok 0xCB
       (mkSketch (ADT7410_new 0)
          (mkTwoWire
             [WBegin;
              WBeginTransmission 0x48; WWrite 0x0B;
              WEndTransmission; WRequestFrom 0x48 1;
              WBeginTransmission 0x48; WWrite 0x03;
              WWrite 0x81; WEndTransmission]
             [] [])).
Proof.
  assert (Hb : is_uchar 0xCB) by (unfold is_uchar; lia).
  split; [reflexivity|]. split; [exact Hb|].
  exact (proj1 (initialise_configures
                  (mkSketch (ADT7410_new 0) (mkTwoWire [] [] [[0xCB]]))
                  0xCB [] eq_refl Hb)).
Defined.

(** C6. getStatus returns the byte the bus delivers for the read of the status
    register 0x02, as it is. *)
Theorem getStatus_raw (s : Sketch) (status : Z) (rest : list (list Z)) :
  replies (Wire s) = [status] :: rest ->
  is_uchar status ->
  getStatus s =
    Ok status
       (mkSketch (this s)
          (mkTwoWire
             (transcript (Wire s) ++
              [WBeginTransmission (i2cAddress (this s)); WWrite 0x02;
               WEndTransmission; WRequestFrom (i2cAddress (this s)) 1])
             [] rest)).
Proof.
  intros Hr Hb.
  rewrite (getStatus_run s status rest Hr).
  rewrite (uchar_id status Hb), (after_read_eq _ _ _ _ _ Hr). reflexivity.
Qed.

Lemma getStatus_raw_witness :
  is_uchar 0x5A /\
  getStatus (mkSketch (ADT7410_new 2) (mkTwoWire [] [] [[0x5A]])) =
    Ok 0x5A
       (mkSketch (ADT7410_new 2)
          (mkTwoWire
             [WBeginTransmission 0x4A; WWrite 0x02; WEndTransmission;
              WRequestFrom 0x4A 1]
             [] [])).
Proof.
  assert (Hb : is_uchar 0x5A) by (unfold is_uchar; lia).
  split; [exact Hb|].
  exact (getStatus_raw (mkSketch (ADT7410_new 2) (mkTwoWire [] [] [[0x5A]]))
           0x5A [] eq_refl Hb).
Defined.

(** C7. Whatever bytes the device has to send, readI2c stores bytes only in
    the cells 0 to count-1 of the buffer: every cell from index count on is
    left as it was.  In a buffer of at least count cells it stores the first
    min(count, bytes sent) bytes, in order, from cell 0 on, and nothing else.
    The bound is that of [Wire.requestFrom], which is asked for count bytes;
    the loop stores what is then available. *)
Theorem readI2c_bounded_by_count (address count : Z) (data : buffer) (s : Sketch)
    (bytes : list Z) (rest : list (list Z)) :
  replies (Wire s) = bytes :: rest ->
  is_uchar count ->
  (forall (data' : buffer) (s' : Sketch),
     readI2c address count data s = Ok data' s' ->
     forall i : nat, count <= Z.of_nat i -> data' !! i = data !! i) /\
  (count <= Z.of_nat (length data) ->
   readI2c address count data s =
     Ok (((fun b => Some (uchar b)) <$> take (Z.to_nat count) bytes) ++
         drop (Nat.min (Z.to_nat count) (length bytes)) data)
        (mkSketch (this s)
           (mkTwoWire
              (transcript (Wire s) ++
               [WBeginTransmission (i2cAddress (this s)); WWrite address;
                WEndTransmission; WRequestFrom (i2cAddress (this s)) count])
              [] rest))).
Proof.
  intros Hr Hcount. unfold is_uchar in Hcount.
  assert (Hlen : length (take (Z.to_nat count) bytes) =
                 Nat.min (Z.to_nat count) (length bytes)) by apply length_take.
  split.
  - intros data' s' Hrun i Hi.
    rewrite readI2c_by_reply, Hr in Hrun. cbn [hd] in Hrun.
    destruct (stored 0 (take (Z.to_nat count) bytes) data) as [d|] eqn:Hst;
      [|discriminate Hrun].
    inversion Hrun; subst d s'; clear Hrun.
    change 0 with (Z.of_nat 0) in Hst.
    apply stored_filled in Hst; [|simpl; lia].
    rewrite Hst. apply filled_lookup_ge. simpl. lia.
  - intros Hdata.
    rewrite readI2c_run by (rewrite Hr; cbn [hd]; lia).
    rewrite Hr, (after_read_eq _ _ _ _ _ Hr). cbn [hd].
    rewrite filled_spec by (simpl; lia).
    rewrite Hlen. reflexivity.
Qed.

Lemma readI2c_bounded_by_count_witness :
  (forall (data' : buffer) (s' : Sketch),
     readI2c ADT7410_REG__ADT7410_STATUS 1 [None; None]
       (mkSketch (ADT7410_new 0) (mkTwoWire [] [] [[7; 9]])) = Ok data' s' ->
     forall i : nat, 1 <= Z.of_nat i -> data' !! i = [None; None] !! i) /\
  (1 <= Z.of_nat (length [@None Z; None]) ->
   readI2c ADT7410_REG__ADT7410_STATUS 1 [None; None]
     (mkSketch (ADT7410_new 0) (mkTwoWire [] [] [[7; 9]])) =
     Ok [Some 7; None]
        (mkSketch (ADT7410_new 0)
           (mkTwoWire
              [WBeginTransmission 0x48; WWrite 0x02; WEndTransmission;
               WRequestFrom 0x48 1]
              [] []))).
Proof.
  apply (readI2c_bounded_by_count ADT7410_REG__ADT7410_STATUS 1 [None; None]
           (mkSketch (ADT7410_new 0) (mkTwoWire [] [] [[7; 9]])) [7; 9] []).
  - reflexivity.
  - unfold is_uchar. lia.
Defined.

(** C8. A constructed handle satisfies the invariant (sensorID in 0..2 and
    i2cAddress = 0x48 + sensorID); initialise, readTemperature, getStatus and
    getID leave both members as they were, whatever they return; and getID
    returns the sensorID stored at construction. *)
Theorem handle_invariant (sensor_id : Z) (s : Sketch) :
  this s = ADT7410_new sensor_id ->
  handle_ok (this s) /\
  (forall a s', initialise s = Ok a s' -> this s' = this s) /\
  (forall a s', readTemperature s = Ok a s' -> this s' = this s) /\
  (forall a s', getStatus s = Ok a s' -> this s' = this s) /\
  (forall a s', getID s = Ok a s' -> this s' = this s) /\
  getID s = Ok (sensorID (ADT7410_new sensor_id)) s.
Proof.
  intros Hnew. repeat split.
  - rewrite Hnew. unfold ADT7410_new.
    destruct (Z.eqb_spec sensor_id 0) as [-> | H0]; [simpl; auto|].
    destruct (Z.eqb_spec sensor_id 1) as [-> | H1]; [simpl; auto|].
    destruct (Z.eqb_spec sensor_id 2) as [-> | H2]; simpl; auto.
  - rewrite Hnew. unfold ADT7410_new.
    destruct (Z.eqb_spec sensor_id 0) as [-> | H0]; [reflexivity|].
    destruct (Z.eqb_spec sensor_id 1) as [-> | H1]; [reflexivity|].
    destruct (Z.eqb_spec sensor_id 2) as [-> | H2]; reflexivity.
  - intros a s'. apply keeps_this_initialise.
  - intros a s'. apply keeps_this_readTemperature.
  - intros a s'. apply keeps_this_getStatus.
  - intros a s'. apply keeps_this_getID.
  - unfold getID, get_sensorID. rewrite Hnew. reflexivity.
Qed.

Lemma handle_invariant_witness :
  handle_ok (ADT7410_new 2) /\
  (forall a s',
     readTemperature
       (mkSketch (ADT7410_new 2) (mkTwoWire [] [] [[0x00]; [0x81]; [0x0C; 0x80]])) =
       Ok a s' ->
     this s' = ADT7410_new 2) /\
  getID (mkSketch (ADT7410_new 2) (mkTwoWire [] [] [[0x00]; [0x81]; [0x0C; 0x80]])) =
    Ok 2 (mkSketch (ADT7410_new 2) (mkTwoWire [] [] [[0x00]; [0x81]; [0x0C; 0x80]])).
Proof.
  pose proof (handle_invariant 2
                (mkSketch (ADT7410_new 2)
                   (mkTwoWire [] [] [[0x00]; [0x81]; [0x0C; 0x80]]))
                eq_refl) as (Hok & _ & Hread & _ & _ & Hid).
  split; [exact Hok|]. split; [exact Hread|exact Hid].
Defined.

(** C9. In the branch without shift, [tempValue - 65536] stored back into the
    unsigned short is [tempValue] again, so readTemperature returns the
    big-endian concatenation [(data[0] << 8) | data[1]] of the two register
    bytes, whatever they are.  The branch is the one taken when bit 7 of the
    configuration byte read is clear. *)
Theorem readTemperature_no_shift_branch (s : Sketch) (status config d0 d1 : Z)
    (rest : list (list Z)) :
  replies (Wire s) = [status] :: [config] :: [d0; d1] :: rest ->
  is_uchar d0 -> is_uchar d1 ->
  Z.testbit status 7 = false ->
  Z.testbit config 7 = false ->
  ushort (Z.lor (Z.shiftl d0 8) d1 - 65536) = Z.lor (Z.shiftl d0 8) d1 /\
  returned (readTemperature s) = Some (Z.lor (Z.shiftl d0 8) d1).
Proof.
  intros Hr H0 H1 Hs Hc. split.
  - apply ushort_sub_65536. apply concat_range; assumption.
  - rewrite (readTemperature_ready s status config d0 d1 rest Hr Hs).
    simpl. rewrite (uchar_id d0 H0), (uchar_id d1 H1).
    rewrite decode_bit7_clear; [reflexivity|assumption|assumption|].
    rewrite testbit_uchar_7. exact Hc.
Qed.

Lemma readTemperature_no_shift_branch_witness :
  ushort (Z.lor (Z.shiftl 0xFF 8) 0x38 - 65536) = Z.lor (Z.shiftl 0xFF 8) 0x38 /\
  returned (readTemperature
              (mkSketch (ADT7410_new 0)
                 (mkTwoWire [] [] [[0x00]; [0x01]; [0xFF; 0x38]]))) =
    Some (Z.lor (Z.shiftl 0xFF 8) 0x38).
Proof.
  apply (readTemperature_no_shift_branch
           (mkSketch (ADT7410_new 0)
              (mkTwoWire [] [] [[0x00]; [0x01]; [0xFF; 0x38]]))
           0x00 0x01 0xFF 0x38 []).
  - reflexivity.
  - unfold is_uchar. lia.
  - unfold is_uchar. lia.
  - reflexivity.
  - reflexivity.
Defined.

(** The 13-bit rule yields a value in [-4096, 4095]. *)
Lemma decode13_range (d0 d1 : Z) :
  is_uchar d0 -> is_uchar d1 -> -4096 <= decode13 d0 d1 <= 4095.
Proof.
  intros H0 H1. unfold decode13, sign_extend.
  pose proof (shiftr3_range _ (concat_range d0 d1 H0 H1)) as Hr.
  change (13 - 1) with 12.
  rewrite (testbit_top 13) by (change (2 ^ 13) with 8192; lia).
  change (2 ^ (13 - 1)) with 4096. change (2 ^ 13) with 8192.
  destruct (Z.leb_spec 4096 (Z.shiftr (Z.lor (Z.shiftl d0 8) d1) 3)); lia.
Qed.

(** Packing a value of [-32768, 32767] into an unsigned short and reading it
    back as signed gives the value again. *)
Lemma as_signed16_ushort (v : Z) :
  -32768 <= v < 32768 -> as_signed16 (ushort v) = v.
Proof.
  intros H. unfold as_signed16, ushort.
  destruct (Z_lt_le_dec v 0) as [Hneg|Hpos].
  - replace (v mod 65536) with (v + 65536)
      by (apply Z.mod_unique with (q := -1); lia).
    destruct (Z.ltb_spec (v + 65536) 32768); lia.
  - rewrite Z.mod_small by lia.
    destruct (Z.ltb_spec v 32768); lia.
Qed.

(** C10. In the branch that shifts right by 3 and conditionally subtracts
    8192 (taken when bit 7 of the configuration byte read is set), the value
    returned lies in [0x0000, 0x0FFF] or in [0xF000, 0xFFFF], whatever the two
    register bytes are: read as a signed 16-bit number it is the 13-bit
    two's-complement value of the shifted register, in [-4096, 4095]. *)
Theorem readTemperature_shift_branch_range (s : Sketch) (status config d0 d1 : Z)
    (rest : list (list Z)) :
  replies (Wire s) = [status] :: [config] :: [d0; d1] :: rest ->
  is_uchar d0 -> is_uchar d1 ->
  Z.testbit status 7 = false ->
  Z.testbit config 7 = true ->
  exists r : Z,
    returned (readTemperature s) = Some r /\
    (0x0000 <= r <= 0x0FFF \/ 0xF000 <= r <= 0xFFFF) /\
    as_signed16 r = decode13 d0 d1 /\
    -4096 <= as_signed16 r <= 4095.
Proof.
  intros Hr H0 H1 Hs Hc.
  pose proof (decode13_range d0 d1 H0 H1) as Hrange.
  assert (Hsig : as_signed16 (ushort (decode13 d0 d1)) = decode13 d0 d1)
    by (apply as_signed16_ushort; lia).
  exists (ushort (decode13 d0 d1)). split; [|split; [|split]].
  - rewrite (readTemperature_ready s status config d0 d1 rest Hr Hs).
    simpl. rewrite (uchar_id d0 H0), (uchar_id d1 H1).
    rewrite decode_bit7_set; [reflexivity|assumption|assumption|].
    rewrite testbit_uchar_7. exact Hc.
  - unfold ushort.
    destruct (Z_lt_le_dec (decode13 d0 d1) 0) as [Hneg|Hpos].
    + right.
      replace (decode13 d0 d1 mod 65536) with (decode13 d0 d1 + 65536)
        by (apply Z.mod_unique with (q := -1); lia).
      lia.
    + left. rewrite Z.mod_small by lia. lia.
  - exact Hsig.
  - rewrite Hsig. exact Hrange.
Qed.

Lemma readTemperature_shift_branch_range_witness :
  exists r : Z,
    returned (readTemperature
                (mkSketch (ADT7410_new 0)
                   (mkTwoWire [] [] [[0x00]; [0x81]; [0xFF; 0x38]]))) = Some r /\
    (0x0000 <= r <= 0x0FFF \/ 0xF000 <= r <= 0xFFFF) /\
    as_signed16 r = decode13 0xFF 0x38 /\
    -4096 <= as_signed16 r <= 4095.
Proof.
  apply (readTemperature_shift_branch_range
           (mkSketch (ADT7410_new 0)
              (mkTwoWire [] [] [[0x00]; [0x81]; [0xFF; 0x38]]))
           0x00 0x81 0xFF 0x38 []).
  - reflexivity.
  - unfold is_uchar. lia.
  - unfold is_uchar. lia.
  - reflexivity.
  - reflexivity.
Defined.

(** * Further properties of the driver *)

Lemma readI2c_ok_inv (address num : Z) (data d : buffer) (s s' : Sketch) :
  readI2c address num data s = Ok d s' -> s' = after_read address num s.
Proof.
  rewrite readI2c_by_reply.
  destruct (stored 0 (take (Z.to_nat num) (hd [] (replies (Wire s)))) data);
    intros H; inversion H.
  reflexivity.
Qed.

Lemma load_ok_inv (data : buffer) (i v : Z) (s s' : Sketch) :
  load data i s = Ok v s' -> s' = s.
Proof.
  unfold load. destruct (0 <=? i); [|discriminate].
  destruct (data !! Z.to_nat i) as [[w|]|]; intros H; inversion H.
  reflexivity.
Qed.

Lemma mbind_ok_inv {A B} (m : M A) (k : A -> M B) (s s' : Sketch) (b : B) :
  (x ← m; k x) s = Ok b s' ->
  exists a s1, m s = Ok a s1 /\ k a s1 = Ok b s'.
Proof.
  unfold mbind, M_bind, bind. destruct (m s) as [a s1|f]; [|discriminate].
  intros H. exists a, s1. split; [reflexivity|exact H].
Qed.

Lemma getStatus_ok_inv (s s' : Sketch) (v : Z) :
  getStatus s = Ok v s' -> s' = after_read ADT7410_REG__ADT7410_STATUS 1 s.
Proof.
  unfold getStatus. intros H.
  apply mbind_ok_inv in H. destruct H as (d & s1 & Hread & Hload).
  apply readI2c_ok_inv in Hread. apply load_ok_inv in Hload. congruence.
Qed.

(** X1. What getStatus does is decided by the answer of the bus to its
    one-byte request: when no byte arrives, the local [status] is returned
    without ever having been written; otherwise the first byte is returned,
    as it is, and one byte is all that is received. *)
Theorem getStatus_by_reply (s : Sketch) :
  getStatus s =
    match hd [] (replies (Wire s)) with
    | [] => Fault Indeterminate
    | b :: _ => Ok (uchar b) (after_read ADT7410_REG__ADT7410_STATUS 1 s)
    end.
Proof.
  unfold getStatus, mbind, M_bind, bind.
  rewrite readI2c_by_reply.
  destruct (hd [] (replies (Wire s))) as [|b more]; reflexivity.
Qed.

(** X2. The local [config] of readTemperature starts at 0.  When the bus makes
    no byte available for the configuration read, it is still 0 when tested,
    so the branch without shift is taken and the concatenation of the two
    temperature bytes is returned. *)
Theorem readTemperature_config_underread (s : Sketch) (status d0 d1 : Z)
    (rest : list (list Z)) :
  replies (Wire s) = [status] :: [] :: [d0; d1] :: rest ->
  is_uchar d0 -> is_uchar d1 ->
  Z.testbit status 7 = false ->
  readTemperature s =
    Ok (Z.lor (Z.shiftl d0 8) d1)
       (after_read ADT7410_REG__TEMP_MSB 2
          (after_read ADT7410_REG__CONFIG 1
             (after_read ADT7410_REG__ADT7410_STATUS 1 s))).
Proof.
  intros Hr H0 H1 Hbit. unfold readTemperature.
  erewrite mbind_ok by (eapply getStatus_run; exact Hr).
  rewrite land_0x80, testbit_uchar_7, Hbit. cbn [negb].
  set (s1 := after_read ADT7410_REG__ADT7410_STATUS 1 s).
  assert (E1 : replies (Wire s1) = [] :: [d0; d1] :: rest).
  { unfold s1, after_read. cbn [Wire replies]. rewrite Hr. reflexivity. }
  erewrite mbind_ok by (apply readI2c_run; rewrite E1; simpl; lia).
  cbv beta.
  set (s2 := after_read ADT7410_REG__CONFIG 1 s1).
  assert (E2 : replies (Wire s2) = [d0; d1] :: rest).
  { unfold s2, after_read. cbn [Wire replies]. rewrite E1. reflexivity. }
  erewrite mbind_ok by (apply readI2c_run; rewrite E2; simpl; lia).
  cbv beta. rewrite E1, E2.
  transitivity (Ok (decode 0 (uchar d0) (uchar d1))
                  (after_read ADT7410_REG__TEMP_MSB 2 s2)); [reflexivity|].
  rewrite (uchar_id d0 H0), (uchar_id d1 H1).
  rewrite decode_bit7_clear; [reflexivity|assumption|assumption|reflexivity].
Qed.

Lemma readTemperature_config_underread_witness :
  returned
    (readTemperature
       (mkSketch (ADT7410_new 0)
          (mkTwoWire [] [] [[0x00]; []; [0x0C; 0x80]]))) =
  Some (Z.lor (Z.shiftl 0x0C 8) 0x80).
Proof.
  rewrite (readTemperature_config_underread
             (mkSketch (ADT7410_new 0)
                (mkTwoWire [] [] [[0x00]; []; [0x0C; 0x80]]))
             0x00 0x0C 0x80 []).
  - reflexivity.
  - reflexivity.
  - unfold is_uchar. lia.
  - unfold is_uchar. lia.
  - reflexivity.
Defined.

(** X3. When the sensor is ready but the bus makes fewer than two bytes
    available for the temperature read, readTemperature computes with a cell
    of [data] that was never written: the value it returns is indeterminate. *)
Theorem readTemperature_data_underread (s : Sketch) (status : Z)
    (cfg temp : list Z) (rest : list (list Z)) :
  replies (Wire s) = [status] :: cfg :: temp :: rest ->
  Z.testbit status 7 = false ->
  (length cfg <= 1)%nat ->
  (length temp < 2)%nat ->
  readTemperature s = Fault Indeterminate.
Proof.
  intros Hr Hbit Hcfg Htemp. unfold readTemperature.
  erewrite mbind_ok by (eapply getStatus_run; exact Hr).
  rewrite land_0x80, testbit_uchar_7, Hbit. cbn [negb].
  set (s1 := after_read ADT7410_REG__ADT7410_STATUS 1 s).
  assert (E1 : replies (Wire s1) = cfg :: temp :: rest).
  { unfold s1, after_read. cbn [Wire replies]. rewrite Hr. reflexivity. }
  erewrite mbind_ok
    by (apply readI2c_run; rewrite E1; cbn [hd]; rewrite length_take;
        cbn [length]; lia).
  cbv beta.
  set (s2 := after_read ADT7410_REG__CONFIG 1 s1).
  assert (E2 : replies (Wire s2) = temp :: rest).
  { unfold s2, after_read. cbn [Wire replies]. rewrite E1. reflexivity. }
  erewrite mbind_ok
    by (apply readI2c_run; rewrite E2; cbn [hd]; rewrite length_take;
        cbn [length]; lia).
  cbv beta. rewrite E2. cbn [hd].
  destruct temp as [|t [|t' more]]; [reflexivity|reflexivity|].
  simpl in Htemp. lia.
Qed.

Lemma readTemperature_data_underread_witness :
  readTemperature
    (mkSketch (ADT7410_new 0) (mkTwoWire [] [] [[0x00]; [0x81]; [0x0C]])) =
  Fault Indeterminate.
Proof.
  apply (readTemperature_data_underread
           (mkSketch (ADT7410_new 0) (mkTwoWire [] [] [[0x00]; [0x81]; [0x0C]]))
           0x00 [0x81] [0x0C] []).
  - reflexivity.
  - reflexivity.
  - simpl. lia.
  - simpl. lia.
Defined.

(** X4. The index of the loop of readI2c is a [uint8_t]: in a buffer of 256
    cells or more no store can fall outside, however many bytes the bus makes
    available.  readI2c then returns, with a buffer of the same size. *)
Theorem readI2c_large_buffer (address num : Z) (data : buffer) (s : Sketch) :
  (256 <= length data)%nat ->
  exists d : buffer,
    readI2c address num data s = Ok d (after_read address num s) /\
    length d = length data.
Proof.
  intros Hlen.
  destruct (stored_large (take (Z.to_nat num) (hd [] (replies (Wire s)))) 0 data
              ltac:(lia) Hlen) as [d Hd].
  exists d. split.
  - rewrite readI2c_by_reply, Hd. reflexivity.
  - exact (length_stored _ _ _ _ Hd).
Qed.

Lemma readI2c_large_buffer_witness :
  exists d : buffer,
    readI2c ADT7410_REG__TEMP_MSB 2 (replicate 256 None)
      (mkSketch (ADT7410_new 0) (mkTwoWire [] [] [[0x0C; 0x80; 0x00]])) =
      Ok d (after_read ADT7410_REG__TEMP_MSB 2
              (mkSketch (ADT7410_new 0) (mkTwoWire [] [] [[0x0C; 0x80; 0x00]]))) /\
    length d = length (replicate 256 (@None Z)).
Proof.
  apply (readI2c_large_buffer ADT7410_REG__TEMP_MSB 2 (replicate 256 None)
           (mkSketch (ADT7410_new 0) (mkTwoWire [] [] [[0x0C; 0x80; 0x00]]))).
  rewrite length_replicate. lia.
Defined.

Lemma ADT7410_new_ok (sensor_id : Z) : handle_ok (ADT7410_new sensor_id).
Proof.
  unfold handle_ok, ADT7410_new.
  destruct (Z.eqb_spec sensor_id 0) as [-> | H0]; [simpl; auto|].
  destruct (Z.eqb_spec sensor_id 1) as [-> | H1]; [simpl; auto|].
  destruct (Z.eqb_spec sensor_id 2) as [-> | H2]; simpl; auto.
Qed.

(** X6. writeI2c always returns.  For a constructed handle it makes one
    transmission, to the address 0x48 + sensorID, that carries the register
    address and then the data byte; it requests nothing from the bus and
    leaves the receive buffer as it was. *)
Theorem writeI2c_transmission (sensor_id address data : Z) (s : Sketch) :
  this s = ADT7410_new sensor_id ->
  0x48 <= 0x48 + sensorID (this s) <= 0x4A /\
  writeI2c address data s =
    Ok tt
       (mkSketch (this s)
          (mkTwoWire
             (transcript (Wire s) ++
              [WBeginTransmission (0x48 + sensorID (this s)); WWrite address;
               WWrite data; WEndTransmission])
             (rxBuffer (Wire s)) (replies (Wire s)))).
Proof.
  intros Hnew.
  destruct (ADT7410_new_ok sensor_id) as [Hid Haddr].
  rewrite writeI2c_run. unfold register_write.
  rewrite Hnew, Haddr. split; [lia|reflexivity].
Qed.

Lemma writeI2c_transmission_witness :
  0x48 <= 0x48 + 1 <= 0x4A /\
  writeI2c ADT7410_REG__CONFIG 0x81
    (mkSketch (ADT7410_new 1) (mkTwoWire [] [0x33] [[0x00]])) =
    Ok tt
       (mkSketch (ADT7410_new 1)
          (mkTwoWire
             [WBeginTransmission 0x49; WWrite 0x03; WWrite 0x81; WEndTransmission]
             [0x33] [[0x00]])).
Proof.
  exact (writeI2c_transmission 1 ADT7410_REG__CONFIG 0x81
           (mkSketch (ADT7410_new 1) (mkTwoWire [] [0x33] [[0x00]])) eq_refl).
Defined.

Lemma initialise_ok_inv (s s' : Sketch) (v : Z) :
  initialise s = Ok v s' ->
  transcript (Wire s') =
    transcript (Wire s) ++ [WBegin] ++
    register_read (i2cAddress (this s)) ADT7410_REG__ADT7410_ID 1 ++
    register_write (i2cAddress (this s)) ADT7410_REG__CONFIG 0x81.
Proof.
  unfold initialise. intros H.
  apply mbind_ok_inv in H. destruct H as ([] & s1 & Hbegin & H).
  inversion Hbegin; subst s1; clear Hbegin.
  apply mbind_ok_inv in H. destruct H as (d & s2 & Hread & H).
  apply readI2c_ok_inv in Hread. subst s2.
  apply mbind_ok_inv in H. destruct H as ([] & s3 & Hwrite & H).
  rewrite writeI2c_run in Hwrite. inversion Hwrite; subst s3; clear Hwrite.
  apply load_ok_inv in H. subst s'.
  simpl. repeat rewrite <- app_assoc. reflexivity.
Qed.

Lemma readTemperature_ok_inv (s s' : Sketch) (v : Z) :
  readTemperature s = Ok v s' ->
  (v = 0 /\ s' = after_read ADT7410_REG__ADT7410_STATUS 1 s) \/
  s' = after_read ADT7410_REG__TEMP_MSB 2
         (after_read ADT7410_REG__CONFIG 1
            (after_read ADT7410_REG__ADT7410_STATUS 1 s)).
Proof.
  unfold readTemperature. intros H.
  apply mbind_ok_inv in H. destruct H as (status & s1 & Hst & H).
  apply getStatus_ok_inv in Hst. subst s1.
  destruct (Z.land status 128 =? 0).
  - right.
    apply mbind_ok_inv in H. destruct H as (c & s2 & Hc & H).
    apply readI2c_ok_inv in Hc. subst s2.
    apply mbind_ok_inv in H. destruct H as (d & s3 & Hd & H).
    apply readI2c_ok_inv in Hd. subst s3.
    apply mbind_ok_inv in H. destruct H as (x0 & s4 & H0 & H).
    apply load_ok_inv in H0. subst s4.
    apply mbind_ok_inv in H. destruct H as (x1 & s5 & H1 & H).
    apply load_ok_inv in H1. subst s5.
    apply mbind_ok_inv in H. destruct H as (x2 & s6 & H2 & H).
    apply load_ok_inv in H2. subst s6.
    inversion H. reflexivity.
  - left. inversion H. split; reflexivity.
Qed.

(** X7. A run of readTemperature that returns has made either one register
    read (status, and then it returns 0) or three (status, configuration, and
    the two temperature bytes from register 0x00 in one request), in that
    order and nothing else: it never writes a register and never reads the
    LSB register 0x01 or the ID register on their own. *)
Theorem readTemperature_bus_footprint (s s' : Sketch) (v : Z) :
  readTemperature s = Ok v s' ->
  this s' = this s /\
  rxBuffer (Wire s') = [] /\
  ((v = 0 /\
    transcript (Wire s') =
      transcript (Wire s) ++
      [WBeginTransmission (i2cAddress (this s)); WWrite 0x02;
       WEndTransmission; WRequestFrom (i2cAddress (this s)) 1] /\
    replies (Wire s') = tl (replies (Wire s)))
   \/
   (transcript (Wire s') =
      transcript (Wire s) ++
      [WBeginTransmission (i2cAddress (this s)); WWrite 0x02;
       WEndTransmission; WRequestFrom (i2cAddress (this s)) 1;
       WBeginTransmission (i2cAddress (this s)); WWrite 0x03;
       WEndTransmission; WRequestFrom (i2cAddress (this s)) 1;
       WBeginTransmission (i2cAddress (this s)); WWrite 0x00;
       WEndTransmission; WRequestFrom (i2cAddress (this s)) 2] /\
    replies (Wire s') = tl (tl (tl (replies (Wire s)))))).
Proof.
  intros H. apply readTemperature_ok_inv in H.
  destruct H as [[-> ->] | ->].
  - split; [reflexivity|]. split; [reflexivity|]. left.
    split; [reflexivity|]. split; reflexivity.
  - split; [reflexivity|]. split; [reflexivity|]. right.
    split; [|reflexivity].
    unfold after_read, register_read. simpl.
    repeat rewrite <- app_assoc. reflexivity.
Qed.

Lemma readTemperature_bus_footprint_witness :
  readTemperature
    (mkSketch (ADT7410_new 1) (mkTwoWire [] [] [[0x80]; [0x81]; [0x0C; 0x80]])) =
    Ok 0
       (mkSketch (ADT7410_new 1)
          (mkTwoWire
             [WBeginTransmission 0x49; WWrite 0x02; WEndTransmission;
              WRequestFrom 0x49 1]
             [] [[0x81]; [0x0C; 0x80]])) /\
  this (mkSketch (ADT7410_new 1)
          (mkTwoWire
             [WBeginTransmission 0x49; WWrite 0x02; WEndTransmission;
              WRequestFrom 0x49 1]
             [] [[0x81]; [0x0C; 0x80]])) = ADT7410_new 1.
Proof.
  split; [reflexivity|].
  exact (proj1 (readTemperature_bus_footprint
                  (mkSketch (ADT7410_new 1)
                     (mkTwoWire [] [] [[0x80]; [0x81]; [0x0C; 0x80]]))
                  (mkSketch (ADT7410_new 1)
                     (mkTwoWire
                        [WBeginTransmission 0x49; WWrite 0x02; WEndTransmission;
                         WRequestFrom 0x49 1]
                        [] [[0x81]; [0x0C; 0x80]]))
                  0 eq_refl)).
Defined.

(** X8. Every bus call a public operation of a constructed handle makes that
    names a device names the handle's own address 0x48 + sensorID: initialise,
    readTemperature and getStatus only add calls to the transcript, and none
    of them addresses another device. *)
Theorem public_operations_address_own_sensor (sensor_id : Z) (s s' : Sketch)
    (v : Z) :
  this s = ADT7410_new sensor_id ->
  initialise s = Ok v s' \/ readTemperature s = Ok v s' \/ getStatus s = Ok v s' ->
  exists calls : list wire_call,
    transcript (Wire s') = transcript (Wire s) ++ calls /\
    Forall (addressed_to (0x48 + sensorID (this s))) calls.
Proof.
  intros Hnew Hrun.
  assert (Haddr : i2cAddress (this s) = 0x48 + sensorID (this s)).
  { rewrite Hnew. apply ADT7410_new_ok. }
  destruct Hrun as [Hi | [Ht | Hs]].
  - apply initialise_ok_inv in Hi. eexists. split; [exact Hi|].
    unfold register_read, register_write.
    repeat constructor; exact Haddr.
  - apply readTemperature_ok_inv in Ht. destruct Ht as [[_ ->] | ->].
    + eexists. split; [reflexivity|].
      unfold register_read. repeat constructor; exact Haddr.
    + unfold after_read, register_read. simpl.
      repeat rewrite <- app_assoc. eexists. split; [reflexivity|].
      repeat constructor; exact Haddr.
  - apply getStatus_ok_inv in Hs. subst s'.
    eexists. split; [reflexivity|].
    unfold register_read. repeat constructor; exact Haddr.
Qed.

Lemma public_operations_address_own_sensor_witness :
  exists calls : list wire_call,
    [WBegin; WBeginTransmission 0x4A; WWrite 0x0B; WEndTransmission;
     WRequestFrom 0x4A 1; WBeginTransmission 0x4A; WWrite 0x03; WWrite 0x81;
     WEndTransmission] = [] ++ calls /\
    Forall (addressed_to (0x48 + 2)) calls.
Proof.
  exact (public_operations_address_own_sensor 2
           (mkSketch (ADT7410_new 2) (mkTwoWire [] [] [[0xCB]]))
           (mkSketch (ADT7410_new 2)
              (mkTwoWire
                 [WBegin; WBeginTransmission 0x4A; WWrite 0x0B; WEndTransmission;
                  WRequestFrom 0x4A 1; WBeginTransmission 0x4A; WWrite 0x03;
                  WWrite 0x81; WEndTransmission]
                 [] []))
           0xCB eq_refl (or_introl eq_refl)).
Defined.



Lemma decode16_range (d0 d1 : Z) :
  is_uchar d0 -> is_uchar d1 -> -32768 <= decode16 d0 d1 <= 32767.
Proof.
  intros H0 H1. unfold decode16, sign_extend.
  pose proof (concat_range d0 d1 H0 H1) as Hr.
  change (16 - 1) with 15.
  rewrite (testbit_top 16) by (change (2 ^ 16) with 65536; lia).
  change (2 ^ (16 - 1)) with 32768. change (2 ^ 16) with 65536.
  destruct (Z.leb_spec 32768 (Z.lor (Z.shiftl d0 8) d1)); lia.
Qed.

(** X10. In the branch without shift the value returned, read as a signed
    16-bit number, is the two's-complement value of the two register bytes
    (sign at bit 15), between -32768 and 32767. *)
Theorem readTemperature_no_shift_signed (s : Sketch) (status config d0 d1 : Z)
    (rest : list (list Z)) :
  replies (Wire s) = [status] :: [config] :: [d0; d1] :: rest ->
  is_uchar d0 -> is_uchar d1 ->
  Z.testbit status 7 = false ->
  Z.testbit config 7 = false ->
  exists r : Z,
    returned (readTemperature s) = Some r /\
    as_signed16 r = decode16 d0 d1 /\
    -32768 <= as_signed16 r <= 32767.
Proof.
  intros Hr H0 H1 Hs Hc.
  pose proof (decode16_range d0 d1 H0 H1) as Hrange.
  assert (Hsig : as_signed16 (ushort (decode16 d0 d1)) = decode16 d0 d1)
    by (apply as_signed16_ushort; lia).
  exists (ushort (decode16 d0 d1)). split; [|split].
  - rewrite (readTemperature_ready s status config d0 d1 rest Hr Hs).
    simpl. rewrite (uchar_id d0 H0), (uchar_id d1 H1).
    rewrite decode_bit7_clear, ushort_decode16;
      [reflexivity|assumption|assumption|assumption|assumption|].
    rewrite testbit_uchar_7. exact Hc.
  - exact Hsig.
  - rewrite Hsig. exact Hrange.
Qed.

Lemma readTemperature_no_shift_signed_witness :
  exists r : Z,
    returned (readTemperature
                (mkSketch (ADT7410_new 0)
                   (mkTwoWire [] [] [[0x00]; [0x01]; [0xFF; 0x38]]))) = Some r /\
    as_signed16 r = decode16 0xFF 0x38 /\
    -32768 <= as_signed16 r <= 32767.
Proof.
  apply (readTemperature_no_shift_signed
           (mkSketch (ADT7410_new 0)
              (mkTwoWire [] [] [[0x00]; [0x01]; [0xFF; 0x38]]))
           0x00 0x01 0xFF 0x38 []).
  - reflexivity.
  - unfold is_uchar. lia.
  - unfold is_uchar. lia.
  - reflexivity.
  - reflexivity.
Defined.

(** X11. What initialise returns is decided by the answer of the bus to the
    one-byte read of the ID register: when no byte arrives, the local
    [whoami] is returned without ever having been written; otherwise the
    first byte is returned, after the configuration write. *)
Theorem initialise_by_reply (s : Sketch) :
  initialise s =
    match hd [] (replies (Wire s)) with
    | [] => Fault Indeterminate
    | b :: _ =>
        Ok (uchar b)
           (mkSketch (this s)
              (mkTwoWire
                 (transcript (Wire s) ++
                  [WBegin;
                   WBeginTransmission (i2cAddress (this s)); WWrite 0x0B;
                   WEndTransmission; WRequestFrom (i2cAddress (this s)) 1;
                   WBeginTransmission (i2cAddress (this s)); WWrite 0x03;
                   WWrite 0x81; WEndTransmission])
                 [] (tl (replies (Wire s)))))
    end.
Proof.
  unfold initialise, mbind, M_bind, bind, Wire_begin, on_wire.
  rewrite readI2c_by_reply. cbn [Wire call replies].
  destruct (hd [] (replies (Wire s))) as [|b more].
  - reflexivity.
  - simpl. unfold call. simpl.
    repeat rewrite <- app_assoc. reflexivity.
Qed.

Lemma shiftr3_concat (d0 d1 : Z) :
  is_uchar d0 -> is_uchar d1 ->
  Z.shiftr (Z.lor (Z.shiftl d0 8) d1) 3 = 32 * d0 + Z.shiftr d1 3.
Proof.
  intros H0 H1. rewrite concat_bytes by assumption.
  rewrite !Z.shiftr_div_pow2 by lia. change (2 ^ 3) with 8.
  replace (256 * d0 + d1) with (32 * d0 * 8 + d1) by lia.
  apply Z.div_add_l. lia.
Qed.

(** X12. In the branch that shifts, the three low bits of the LSB register
    are dropped: two readings whose MSB bytes agree and whose LSB bytes agree
    above bit 2 return the same value. *)
Theorem readTemperature_shift_drops_low_bits (s s2 : Sketch)
    (status status2 config config2 d0 d1 d1' : Z) (rest rest2 : list (list Z)) :
  replies (Wire s) = [status] :: [config] :: [d0; d1] :: rest ->
  replies (Wire s2) = [status2] :: [config2] :: [d0; d1'] :: rest2 ->
  is_uchar d0 -> is_uchar d1 -> is_uchar d1' ->
  Z.testbit status 7 = false -> Z.testbit status2 7 = false ->
  Z.testbit config 7 = true -> Z.testbit config2 7 = true ->
  Z.shiftr d1 3 = Z.shiftr d1' 3 ->
  returned (readTemperature s) = returned (readTemperature s2).
Proof.
  intros Hr Hr2 H0 H1 H1' Hs Hs2 Hc Hc2 Hlow.
  rewrite (readTemperature_ready s status config d0 d1 rest Hr Hs).
  rewrite (readTemperature_ready s2 status2 config2 d0 d1' rest2 Hr2 Hs2).
  simpl. rewrite (uchar_id d0 H0), (uchar_id d1 H1), (uchar_id d1' H1').
  rewrite !decode_bit7_set
    by (try assumption; rewrite testbit_uchar_7; assumption).
  unfold decode13.
  rewrite !shiftr3_concat by assumption.
  rewrite Hlow. reflexivity.
Qed.

Lemma readTemperature_shift_drops_low_bits_witness :
  returned (readTemperature
              (mkSketch (ADT7410_new 0)
                 (mkTwoWire [] [] [[0x00]; [0x81]; [0x0C; 0x80]]))) =
  returned (readTemperature
              (mkSketch (ADT7410_new 0)
                 (mkTwoWire [] [] [[0x00]; [0x81]; [0x0C; 0x87]]))).
Proof.
  apply (readTemperature_shift_drops_low_bits
           (mkSketch (ADT7410_new 0)
              (mkTwoWire [] [] [[0x00]; [0x81]; [0x0C; 0x80]]))
           (mkSketch (ADT7410_new 0)
              (mkTwoWire [] [] [[0x00]; [0x81]; [0x0C; 0x87]]))
           0x00 0x00 0x81 0x81 0x0C 0x80 0x87 [] []).
  - reflexivity.
  - reflexivity.
  - unfold is_uchar. lia.
  - unfold is_uchar. lia.
  - unfold is_uchar. lia.
  - reflexivity.
  - reflexivity.
  - reflexivity.
  - reflexivity.
  - reflexivity.
Defined.
